(** * gen-favicon.py: the log-spaced ruler icon generator

    A shallow embedding of [scripts/gen-favicon.py] and the properties its
    specification states about it.

    Modelling conventions.
    - The generator is read twice.  In the exact reading a Python [int] is a
      [Z] and a Python [float] is a real number: arithmetic on floats is
      exact, [math.log] is the natural logarithm [ln], and rounding error,
      overflow, infinities and NaN are left out.  It carries the properties
      that do not depend on rounding.  In the double-precision reading
      (module [Double]) a [float] is an IEEE-754 binary64 value, every
      operation rounds as the hardware does, and [math.log] is whatever the
      C library returns; it carries the properties that rounding decides.
    - A numeric argument may be an [int] or a [float]; mixed arithmetic
      promotes to [float] as Python does.
    - [math.log] raises [ValueError] on a non-positive argument and float
      division raises [ZeroDivisionError] on a zero divisor: fallible steps
      return a [result].
    - The function builds its output by appending to the local list
      [svg_lines]; the script then writes a file and prints a message.  Both
      run in one state-and-exception monad whose state holds the list and
      the outside world (file system, standard output).
    - A string is a sequence of bytes (the UTF-8 encoding of the text). *)

From Stdlib Require Import ZArith List String Ascii Bool Reals Lra Lia.
From Stdlib Require Import DecimalString.
From Stdlib Require Floats.
Import ListNotations.

Open Scope string_scope.
Open Scope Z_scope.

(** ** The Python runtime *)

Module Py.

Inductive exn : Set :=
| ValueError
| ZeroDivisionError
| OverflowError
| OSError
| UnicodeEncodeError.

Inductive result (A : Type) : Type :=
| Ok (a : A)
| Raise (e : exn).
Arguments Ok {A} a.
Arguments Raise {A} e.

(** Numbers: [int] and [float], the latter read as the real number it
    stands for (the exact reading; [Double.dnum] is the rounded one). *)
Inductive num : Type :=
| Int (z : Z)
| Float (r : R).

Definition num_val (x : num) : R :=
  match x with
  | Int z => IZR z
  | Float r => r
  end.

(** [x + y], [x - y], [x * y]: integer when both operands are, float otherwise. *)
Definition add (x y : num) : num :=
  match x, y with
  | Int a, Int b => Int (a + b)
  | _, _ => Float (num_val x + num_val y)
  end.

Definition sub (x y : num) : num :=
  match x, y with
  | Int a, Int b => Int (a - b)
  | _, _ => Float (num_val x - num_val y)
  end.

Definition mul (x y : num) : num :=
  match x, y with
  | Int a, Int b => Int (a * b)
  | _, _ => Float (num_val x * num_val y)
  end.

(** [math.log(z)] on an [int] argument, in the exact reading. *)
Definition math_log (z : Z) : result R :=
  if 0 <? z then Ok (ln (IZR z)) else Raise ValueError.

(** [a / b] on floats. *)
Definition truediv (a b : R) : result R :=
  if Req_dec_T b 0 then Raise ZeroDivisionError else Ok (a / b)%R.

(** [range(n)]: empty when [n <= 0]. *)
Definition range (n : Z) : list Z := map Z.of_nat (seq 0 (Z.to_nat n)).

(** [str(z)] for an [int]. *)
Definition str_int (z : Z) : string := NilZero.string_of_int (Z.to_int z).

(** Nearest integer, ties to the even one. *)
Definition round_half_even (x : R) : Z :=
  let f := Int_part x in
  let d := (x - IZR f)%R in
  if Rlt_dec d (1 / 2) then f
  else if Rlt_dec (1 / 2) d then f + 1
  else if Z.even f then f else f + 1.

(** [format(x, '.1f')]: the decimal with one fractional digit nearest to [x]. *)
Definition format_1f (x : R) : string :=
  let t := round_half_even (Rabs x * 10) in
  (if Rlt_dec x 0 then "-" else "") ++ str_int (t / 10) ++ "." ++ str_int (t mod 10).

(** The double quote and the line feed, as one-character strings. *)
Definition dquote : string := String (ascii_of_nat 34) EmptyString.
Definition newline : string := String (ascii_of_nat 10) EmptyString.

(** [sep.join(l)] *)
Definition join (sep : string) (l : list string) : string := String.concat sep l.

(** An f-string: the concatenation of its pieces. *)
Definition fstring (pieces : list string) : string := String.concat "" pieces.

End Py.
Import Py.

(** ** Exceptions and state *)

(** Pure steps that may raise. *)
Definition rbind {A B : Type} (c : result A) (k : A -> result B) : result B :=
  match c with
  | Ok a => k a
  | Raise e => Raise e
  end.

Notation "x <~ c ;; k" := (rbind c (fun x => k))
  (at level 61, c at next level, right associativity).

(** What a run of the script can touch: the list under construction inside
    [generate_log_ruler_svg], the files on disk and the standard output. *)
Record state : Type := mkState {
  svg_lines : list string;
  files : string -> option string;
  stdout : list string
}.

Definition M (A : Type) : Type := state -> result A * state.

Definition ret {A : Type} (a : A) : M A := fun s => (Ok a, s).

Definition bind {A B : Type} (c : M A) (k : A -> M B) : M B :=
  fun s =>
    match c s with
    | (Ok a, s') => k a s'
    | (Raise e, s') => (Raise e, s')
    end.

Notation "x <- c ;; k" := (bind c (fun x => k))
  (at level 61, c at next level, right associativity).
Notation "c ;; k" := (bind c (fun _ => k))
  (at level 61, right associativity).

Definition lift {A : Type} (c : result A) : M A := fun s => (c, s).

(** [svg_lines = []] *)
Definition new_svg_lines : M unit :=
  fun s => (Ok tt, mkState [] (files s) (stdout s)).

(** [svg_lines.append(l)] *)
Definition append (l : string) : M unit :=
  fun s => (Ok tt, mkState (svg_lines s ++ [l]) (files s) (stdout s)).

(** [sep.join(svg_lines)] *)
Definition join_svg_lines (sep : string) : M string :=
  fun s => (Ok (join sep (svg_lines s)), s).

(** What the platform makes of [open(path, 'w')] followed by
    [write(content)]: the text is stored; or the file cannot be opened; or
    the default encoding cannot encode the text, which is found out after
    the file was truncated; or writing fails part-way and [kept] is what the
    file holds afterwards. *)
Inductive write_outcome : Type :=
| Written
| OpenFailed
| EncodeFailed
| WriteFailed (kept : string).

Definition platform : Type := string -> string -> write_outcome.

Definition set_file (s : state) (path content : string) : state :=
  mkState (svg_lines s)
    (fun q => if String.eqb q path then Some content else files s q)
    (stdout s).

(** [with open(path, 'w') as f: f.write(content)] *)
Definition write_file (pf : platform) (path content : string) : M unit :=
  fun s =>
    match pf path content with
    | Written => (Ok tt, set_file s path content)
    | OpenFailed => (Raise OSError, s)
    | EncodeFailed => (Raise UnicodeEncodeError, set_file s path "")
    | WriteFailed kept => (Raise OSError, set_file s path kept)
    end.

(** [print(msg)] *)
Definition print (msg : string) : M unit :=
  fun s => (Ok tt, mkState (svg_lines s) (files s) (stdout s ++ [msg])).

(** [for x in l: body(x)] *)
Fixpoint for_each {A : Type} (l : list A) (body : A -> M unit) : M unit :=
  match l with
  | [] => ret tt
  | x :: t => body x ;; for_each t body
  end.

(** ** The generator *)

(** The arguments of [generate_log_ruler_svg]. *)
Record params : Type := mkParams {
  num_marks : Z;
  width : num;
  height : num;
  margin : num;
  baseline_y : num;
  color : string;
  baseline_thickness : num;
  mark_thickness : num;
  tall_height : num;
  medium_height : num;
  short_height : num
}.

(** The defaults of the signature. *)
Definition default_params : params :=
  mkParams 8 (Int 100) (Int 100) (Int 10) (Int 70) "#333"
           (Int 3) (Int 2) (Int 40) (Int 30) (Int 20).

(** One marking, as the loop body computes it. *)
Record tick : Type := mkTick {
  x_pos : num;
  mark_height : num;
  thickness : num;
  y_top : num
}.

(** Lines 46-49: the position of marking [i] along the ruler. *)
Definition ratio (p : params) (i : Z) : result num :=
  if num_marks p =? 1 then Ok (Int 0)
  else
    a <~ math_log (i + 1) ;;
    b <~ math_log (num_marks p) ;;
    q <~ truediv a b ;;
    Ok (Float q).

(** Lines 54-62: height and stroke width of marking [i]. *)
Definition weight (p : params) (i : Z) : num * num :=
  if (i =? 0) || (i =? num_marks p - 1) then
    (tall_height p, add (mark_thickness p) (Float 0.5))
  else if i mod 2 =? 0 then
    (medium_height p, mark_thickness p)
  else
    (short_height p, mark_thickness p).

(** Lines 46-64: everything the loop body computes before it emits;
    [x_start], [x_end] and [ruler_width] are the values of lines 34, 35
    and 42, which the loop reads and never changes. *)
Definition mark (p : params) (i : Z) : result tick :=
  let x_start := margin p in
  let x_end := sub (width p) (margin p) in
  let ruler_width := sub x_end x_start in
  r <~ ratio p i ;;
  let x := add x_start (mul ruler_width r) in
  let '(h, th) := weight p i in
  let y := sub (baseline_y p) h in
  Ok (mkTick x h th y).

Section Generator.

(** [repr] of a float, as the interpreter prints it in an f-string. *)
Variable float_repr : R -> string.

(** [f"{x}"] *)
Definition fmt (x : num) : string :=
  match x with
  | Int z => str_int z
  | Float r => float_repr r
  end.

(** [f"{x:.1f}"] *)
Definition fmt_1f (x : num) : string := format_1f (num_val x).

(** Line 31. *)
Definition svg_open (p : params) : string :=
  fstring ["<svg xmlns="; dquote; "http://www.w3.org/2000/svg"; dquote;
           " viewBox="; dquote; "0 0 "; fmt (width p); " "; fmt (height p);
           dquote; ">"].

(** Lines 37 and 67 share their shape. *)
Definition line_element (x1 y1 x2 y2 stroke stroke_width : string) : string :=
  fstring ["  <line x1="; dquote; x1; dquote; " y1="; dquote; y1; dquote;
           " x2="; dquote; x2; dquote; " y2="; dquote; y2; dquote;
           " stroke="; dquote; stroke; dquote;
           " stroke-width="; dquote; stroke_width; dquote; "/>"].

(** Line 37. *)
Definition baseline_element (p : params) : string :=
  let x_start := margin p in
  let x_end := sub (width p) (margin p) in
  line_element (fmt x_start) (fmt (baseline_y p)) (fmt x_end) (fmt (baseline_y p))
               (color p) (fmt (baseline_thickness p)).

(** Line 66. *)
Definition mark_comment (i : Z) (t : tick) : string :=
  fstring ["  <!-- Mark "; str_int i; ": x≈"; fmt_1f (x_pos t); " -->"].

(** Line 67. *)
Definition mark_element (p : params) (t : tick) : string :=
  line_element (fmt_1f (x_pos t)) (fmt (baseline_y p))
               (fmt_1f (x_pos t)) (fmt (y_top t))
               (color p) (fmt (thickness t)).

(** Lines 44-68: one turn of the loop. *)
Definition loop_body (p : params) (i : Z) : M unit :=
  t <- lift (mark p i) ;;
  append (mark_comment i t) ;;
  append (mark_element p t) ;;
  append "".

Definition generate_log_ruler_svg (p : params) : M string :=
  new_svg_lines ;;
  append (svg_open p) ;;
  append "  <!-- Horizontal baseline -->" ;;
  append (baseline_element p) ;;
  append "" ;;
  append "  <!-- Log-spaced markings -->" ;;
  for_each (range (num_marks p)) (loop_body p) ;;
  append "</svg>" ;;
  join_svg_lines newline.

(** ** The script *)

(** Lines 76-88. *)
Definition driver_params : params :=
  mkParams 10 (Int 64) (Int 64) (Int 5) (Int 55) "#333"
           (Int 3) (Int 2) (Int 40) (Int 30) (Int 20).

Definition output_file : string := "log_ruler_favicon.svg".

(** Lines 76-95. *)
Definition script (pf : platform) : M unit :=
  svg_content <- generate_log_ruler_svg driver_params ;;
  write_file pf output_file svg_content ;;
  print (fstring ["SVG saved to "; output_file]).

End Generator.

(** ** Reference definitions for the statements below *)

(** The spacing law in the specification's words: [log(i+1) / log(count)]. *)
Definition log_ratio (n i : Z) : R := (ln (IZR (i + 1)) / ln (IZR n))%R.

(** [margin + (width - 2*margin) * log(i+1)/log(count)] *)
Definition log_position (p : params) (i : Z) : R :=
  (num_val (margin p)
   + (num_val (width p) - 2 * num_val (margin p)) * log_ratio (num_marks p) i)%R.

(** The three lines one turn of the loop leaves in [svg_lines]. *)
Definition mark_lines (float_repr : R -> string) (p : params) (i : Z) : list string :=
  match mark p i with
  | Ok t => [mark_comment i t; mark_element float_repr p t; ""]
  | Raise _ => []
  end.

(** The lines before the markings. *)
Definition preamble (float_repr : R -> string) (p : params) : list string :=
  [svg_open float_repr p;
   "  <!-- Horizontal baseline -->";
   baseline_element float_repr p;
   "";
   "  <!-- Log-spaced markings -->"].

(** The whole of [svg_lines] at the [return]. *)
Definition document (float_repr : R -> string) (p : params) : list string :=
  preamble float_repr p
  ++ flat_map (mark_lines float_repr p) (range (num_marks p))
  ++ ["</svg>"].

(** Recognisers for the lines of a document. *)
Definition is_line_element (l : string) : bool := String.prefix "  <line " l.
Definition is_root_open (l : string) : bool := String.prefix "<svg " l.
Definition is_root_close (l : string) : bool := String.eqb l "</svg>".
Definition is_comment (l : string) : bool := String.prefix "  <!--" l.
Definition is_blank (l : string) : bool := String.eqb l "".

(** The lines that carry markup, comments and blank lines left out. *)
Definition element_lines (ls : list string) : list string :=
  filter (fun l => negb (is_comment l || is_blank l)) ls.

(** ** The geometry in double precision *)

(** Lines 34-35 and 42-51 once more, with every [float] an IEEE-754 binary64
    value and every operation rounded to nearest, ties to even. *)
Module Double.
Import Floats.

(** Numbers: [int] and [float]. *)
Inductive dnum : Type :=
| DInt (z : Z)
| DFloat (f : float).

(** [float(z)]: the double nearest to [z]; [OverflowError] beyond the
    largest double. *)
Definition float_of_int (z : Z) : result float :=
  let f := SF2Prim (binary_normalize prec emax z 0 false) in
  if is_infinity f then Raise OverflowError else Ok f.

(** The operand of a mixed operation, converted. *)
Definition to_float (x : dnum) : result float :=
  match x with
  | DInt z => float_of_int z
  | DFloat f => Ok f
  end.

(** [x + y], [x - y], [x * y]: exact on two integers; otherwise both
    operands become doubles and the result is rounded. *)
Definition add (x y : dnum) : result dnum :=
  match x, y with
  | DInt a, DInt b => Ok (DInt (a + b))
  | _, _ => a <~ to_float x ;; b <~ to_float y ;; Ok (DFloat (a + b))
  end.

Definition sub (x y : dnum) : result dnum :=
  match x, y with
  | DInt a, DInt b => Ok (DInt (a - b))
  | _, _ => a <~ to_float x ;; b <~ to_float y ;; Ok (DFloat (a - b))
  end.

Definition mul (x y : dnum) : result dnum :=
  match x, y with
  | DInt a, DInt b => Ok (DInt (a * b))
  | _, _ => a <~ to_float x ;; b <~ to_float y ;; Ok (DFloat (a * b))
  end.

(** [a / b] on floats: a zero divisor of either sign raises. *)
Definition truediv (a b : float) : result float :=
  if (b =? 0)%float then Raise ZeroDivisionError else Ok (a / b)%float.

Section Geometry.

(** [math.log] of a positive [int], as the C library computes it. *)
Variable log : Z -> float.

Definition math_log (z : Z) : result float :=
  if 0 <? z then Ok (log z) else Raise ValueError.

(** Lines 46-49. *)
Definition ratio (num_marks i : Z) : result dnum :=
  if num_marks =? 1 then Ok (DInt 0)
  else
    a <~ math_log (i + 1) ;;
    b <~ math_log num_marks ;;
    q <~ truediv a b ;;
    Ok (DFloat q).

(** Lines 34, 35, 42 and 46-51. *)
Definition x_pos (num_marks : Z) (width margin : dnum) (i : Z) : result dnum :=
  let x_start := margin in
  x_end <~ sub width margin ;;
  ruler_width <~ sub x_end x_start ;;
  r <~ ratio num_marks i ;;
  p <~ mul ruler_width r ;;
  add x_start p.

End Geometry.

(** [math.log] at the integers the statements below evaluate it at: the
    doubles CPython returns where the C library rounds [log] correctly.
    Away from these the table answers NaN, and nothing is stated there. *)
Definition libm_log_samples : list (Z * float) :=
  [(1, 0x0p+0%float); (2, 0x1.62e42fefa39efp-1%float); (3, 0x1.193ea7aad030bp+0%float);
   (4, 0x1.62e42fefa39efp+0%float); (5, 0x1.9c041f7ed8d33p+0%float);
   (6, 0x1.cab0bfa2a2002p+0%float); (7, 0x1.f2272ae325a57p+0%float);
   (8, 0x1.0a2b23f3bab73p+1%float); (9, 0x1.193ea7aad030bp+1%float);
   (10, 0x1.26bb1bbb55516p+1%float); (11, 0x1.32ee3b77f374cp+1%float);
   (12, 0x1.3e116bcd39e7dp+1%float);
   (10344364, 0x1.026e65a0a485cp+4%float); (10344365, 0x1.026e65ba97b3dp+4%float);
   (10344366, 0x1.026e65d48ae1dp+4%float); (11000000, 0x1.036a1c3b7e6bap+4%float)].

Definition libm_log (z : Z) : float :=
  match find (fun e => fst e =? z) libm_log_samples with
  | Some e => snd e
  | None => nan
  end.

End Double.

(** Decide what kind of line a literal is. *)
Ltac literal_kind s :=
  let a := eval vm_compute in (is_line_element s) in
  let b := eval vm_compute in (is_root_open s) in
  let c := eval vm_compute in (is_root_close s) in
  let d := eval vm_compute in (is_comment s) in
  let e := eval vm_compute in (is_blank s) in
  change (is_line_element s) with a; change (is_root_open s) with b;
  change (is_root_close s) with c; change (is_comment s) with d;
  change (is_blank s) with e.

Ltac literal_kinds :=
  literal_kind "  <!-- Horizontal baseline -->";
  literal_kind "  <!-- Log-spaced markings -->";
  literal_kind "</svg>";
  literal_kind "";
  cbn [orb negb].

(** ** The definitions at work *)

Example range_3 : range 3 = [0; 1; 2]%list.
Proof. reflexivity. Qed.

Example range_negative : range (-2) = []%list.
Proof. reflexivity. Qed.

Example str_int_negative : str_int (-12) = "-12".
Proof. reflexivity. Qed.

Example math_log_zero : math_log 0 = Raise ValueError.
Proof. reflexivity. Qed.

Example weight_first : weight driver_params 0 = (Int 40, Float (2 + 0.5)).
Proof. reflexivity. Qed.

Example weight_even : weight driver_params 4 = (Int 30, Int 2).
Proof. reflexivity. Qed.

Example weight_odd : weight driver_params 7 = (Int 20, Int 2).
Proof. reflexivity. Qed.

Example weight_last : weight driver_params 9 = (Int 40, Float (2 + 0.5)).
Proof. reflexivity. Qed.

(** With two markings both are endpoints: index 1 is odd and still tall. *)
Example weight_two_marks :
  weight (mkParams 2 (Int 64) (Int 64) (Int 5) (Int 55) "#333"
                   (Int 3) (Int 2) (Int 40) (Int 30) (Int 20)) 1
  = (Int 40, Float (2 + 0.5)).
Proof. reflexivity. Qed.

Example baseline_of_defaults :
  baseline_element format_1f default_params
  = line_element "10" "70" "90" "70" "#333" "3".
Proof. reflexivity. Qed.

Example line_element_kinds :
  is_line_element (line_element "5" "55" "59" "55" "#333" "3") = true
  /\ is_comment "  <!-- Horizontal baseline -->" = true
  /\ is_root_open (svg_open format_1f driver_params) = true.
Proof. repeat split. Qed.

(** ** Arithmetic of the runtime *)

Lemma num_val_add (x y : num) : num_val (add x y) = (num_val x + num_val y)%R.
Proof. destruct x, y; simpl; auto using plus_IZR. Qed.

Lemma num_val_sub (x y : num) : num_val (sub x y) = (num_val x - num_val y)%R.
Proof. destruct x, y; simpl; auto using minus_IZR. Qed.

Lemma num_val_mul (x y : num) : num_val (mul x y) = (num_val x * num_val y)%R.
Proof. destruct x, y; simpl; auto using mult_IZR. Qed.

Lemma add_float_r (x : num) (r : R) : add x (Float r) = Float (num_val x + r).
Proof. destruct x; reflexivity. Qed.

Lemma mul_float_r (x : num) (r : R) : mul x (Float r) = Float (num_val x * r).
Proof. destruct x; reflexivity. Qed.

Lemma in_range (n i : Z) : In i (range n) <-> 0 <= i < n.
Proof.
  unfold range. rewrite in_map_iff. split.
  - intros (k & <- & Hk). apply in_seq in Hk. lia.
  - intros Hi. exists (Z.to_nat i). split; [lia|]. apply in_seq. lia.
Qed.

Lemma range_nonpos (n : Z) : n <= 0 -> range n = [].
Proof. intros Hn. unfold range. replace (Z.to_nat n) with 0%nat by lia. reflexivity. Qed.

Lemma length_range (n : Z) : List.length (range n) = Z.to_nat n.
Proof. unfold range. now rewrite length_map, length_seq. Qed.


Lemma ln_int_pos (z : Z) : 2 <= z -> (0 < ln (IZR z))%R.
Proof.
  intros Hz. rewrite <- ln_1. apply ln_increasing; [lra|].
  apply IZR_lt. lia.
Qed.

Lemma ln_int_le (a b : Z) : 0 < a -> a <= b -> (ln (IZR a) <= ln (IZR b))%R.
Proof.
  intros Ha Hab. destruct (Z.eq_dec a b) as [->|Hne]; [lra|].
  left. apply ln_increasing; [now apply IZR_lt|]. apply IZR_lt. lia.
Qed.

Lemma math_log_pos (z : Z) : 0 < z -> math_log z = Ok (ln (IZR z)).
Proof. intros Hz. unfold math_log. now apply Z.ltb_lt in Hz as ->. Qed.

Lemma truediv_nonzero (a b : R) : b <> 0%R -> truediv a b = Ok (a / b)%R.
Proof. intros Hb. unfold truediv. now destruct (Req_dec_T b 0). Qed.

(** What the special case for one marking avoids: log(1)/log(1) is 0/0. *)
Lemma unguarded_ratio_raises :
  (a <~ math_log (0 + 1) ;; b <~ math_log 1 ;; q <~ truediv a b ;; Ok (Float q))
  = Raise ZeroDivisionError.
Proof.
  rewrite !math_log_pos by reflexivity. cbn [rbind Z.add Pos.add].
  unfold truediv. destruct (Req_dec_T (ln 1) 0) as [_|Hne]; [reflexivity|].
  now destruct Hne; apply ln_1.
Qed.

(** ** What the loop body computes *)

Lemma ratio_one (p : params) (i : Z) : num_marks p = 1 -> ratio p i = Ok (Int 0).
Proof. intros Hn. unfold ratio. now rewrite Hn. Qed.

Lemma ratio_log (p : params) (i : Z) :
  2 <= num_marks p -> 0 <= i ->
  ratio p i = Ok (Float (log_ratio (num_marks p) i)).
Proof.
  intros Hn Hi. unfold ratio, log_ratio.
  destruct (Z.eqb_spec (num_marks p) 1) as [E|_]; [lia|].
  rewrite (math_log_pos (i + 1)) by lia. simpl.
  rewrite (math_log_pos (num_marks p)) by lia. simpl.
  rewrite truediv_nonzero; [reflexivity|].
  pose proof (ln_int_pos _ Hn). lra.
Qed.

Lemma ratio_total (p : params) (i : Z) :
  0 <= i < num_marks p -> exists r, ratio p i = Ok r.
Proof.
  intros Hi. destruct (Z.eq_dec (num_marks p) 1) as [E|E].
  - eauto using ratio_one.
  - rewrite ratio_log by lia. eauto.
Qed.

Lemma mark_of_ratio (p : params) (i : Z) (r : num) :
  ratio p i = Ok r ->
  mark p i =
  Ok (mkTick (add (margin p) (mul (sub (sub (width p) (margin p)) (margin p)) r))
             (fst (weight p i)) (snd (weight p i))
             (sub (baseline_y p) (fst (weight p i)))).
Proof. intros Hr. unfold mark. rewrite Hr. simpl. now destruct (weight p i). Qed.

Lemma mark_total (p : params) (i : Z) :
  0 <= i < num_marks p -> exists t, mark p i = Ok t.
Proof.
  intros Hi. destruct (ratio_total p i Hi) as [r Hr].
  rewrite (mark_of_ratio _ _ _ Hr). eauto.
Qed.

Lemma mark_x_log (p : params) (i : Z) (t : tick) :
  2 <= num_marks p -> 0 <= i -> mark p i = Ok t ->
  x_pos t = Float (log_position p i).
Proof.
  intros Hn Hi. rewrite (mark_of_ratio _ _ _ (ratio_log p i Hn Hi)).
  intros [= <-]. simpl. rewrite mul_float_r, add_float_r. f_equal.
  unfold log_position. rewrite !num_val_sub. ring.
Qed.

(** ** Running the generator *)

Section Run.

Variable float_repr : R -> string.

Lemma loop_body_run (p : params) (i : Z) (s : state) :
  0 <= i < num_marks p ->
  loop_body float_repr p i s =
  (Ok tt, mkState (svg_lines s ++ mark_lines float_repr p i) (files s) (stdout s)).
Proof.
  intros Hi. destruct (mark_total p i Hi) as [t Ht].
  unfold loop_body, mark_lines, bind, lift, append. rewrite Ht. simpl.
  now rewrite <- !app_assoc.
Qed.

Lemma for_each_run (p : params) (l : list Z) :
  (forall i, In i l -> 0 <= i < num_marks p) ->
  forall s,
    for_each l (loop_body float_repr p) s =
    (Ok tt,
     mkState (svg_lines s ++ flat_map (mark_lines float_repr p) l) (files s) (stdout s)).
Proof.
  induction l as [|i l IH]; intros Hl s.
  - simpl. unfold ret. rewrite app_nil_r. now destruct s.
  - simpl. unfold bind. rewrite loop_body_run by (apply Hl; now left).
    rewrite IH by (intros j Hj; apply Hl; now right).
    simpl. now rewrite <- app_assoc.
Qed.

(** The call returns normally, for every argument and from every state; its
    value is the join of [document], and of the state it changes the local
    list alone. *)
Lemma generate_run (p : params) (s : state) :
  generate_log_ruler_svg float_repr p s =
  (Ok (join newline (document float_repr p)),
   mkState (document float_repr p) (files s) (stdout s)).
Proof.
  unfold generate_log_ruler_svg, bind at 1 2 3 4 5 6.
  unfold new_svg_lines, append at 1 2 3 4 5.
  cbn [svg_lines files stdout app].
  unfold bind at 1. rewrite for_each_run by (intros i; apply in_range).
  unfold bind, append, join_svg_lines.
  cbn [svg_lines files stdout app].
  unfold document, preamble. cbn [app]. reflexivity.
Qed.



End Run.

(** ** Positions *)

Lemma log_ratio_first (n : Z) : log_ratio n 0 = 0%R.
Proof. unfold log_ratio. simpl (0 + 1). rewrite ln_1. unfold Rdiv. ring. Qed.

Lemma log_ratio_last (n : Z) : 2 <= n -> log_ratio n (n - 1) = 1%R.
Proof.
  intros Hn. unfold log_ratio. replace (n - 1 + 1) with n by lia.
  pose proof (ln_int_pos n Hn). field. lra.
Qed.

Lemma log_ratio_mono (n i j : Z) :
  2 <= n -> 0 <= i <= j -> (log_ratio n i <= log_ratio n j)%R.
Proof.
  intros Hn Hij. unfold log_ratio, Rdiv.
  apply Rmult_le_compat_r.
  - left. apply Rinv_0_lt_compat. now apply ln_int_pos.
  - apply ln_int_le; lia.
Qed.

(** The gap between two neighbouring ratios is the logarithm of a quotient
    that shrinks with the index. *)
Lemma ln_gap_decreasing (i j : Z) :
  0 <= i < j ->
  (ln (IZR (j + 2)) - ln (IZR (j + 1)) < ln (IZR (i + 2)) - ln (IZR (i + 1)))%R.
Proof.
  intros Hij.
  assert (Hpos : forall k, 0 < k -> (0 < IZR k)%R) by (intros k Hk; now apply IZR_lt).
  assert (H : (ln (IZR ((j + 2) * (i + 1))) < ln (IZR ((i + 2) * (j + 1))))%R).
  { apply ln_increasing; [apply Hpos; nia|]. apply IZR_lt. nia. }
  rewrite !mult_IZR in H.
  rewrite !ln_mult in H by (apply Hpos; lia).
  lra.
Qed.


(** C2: with exactly one marking the ratio is the constant 0 of the special
    case, whatever the index, so no logarithm is taken and nothing is
    divided; the single marking sits at [margin], and the call returns. *)
Theorem single_mark (p : params) (float_repr : R -> string) (s : state) :
  num_marks p = 1 ->
  range (num_marks p) = [0]%list
  /\ (forall i, ratio p i = Ok (Int 0))
  /\ (exists t, mark p 0 = Ok t /\ num_val (x_pos t) = num_val (margin p))
  /\ exists svg s', generate_log_ruler_svg float_repr p s = (Ok svg, s').
Proof.
  intros Hn. split; [now rewrite Hn|].
  split; [intros i; now apply ratio_one|]. split.
  - rewrite (mark_of_ratio _ _ _ (ratio_one p 0 Hn)). eexists. split; [reflexivity|].
    simpl. rewrite num_val_add, num_val_mul. simpl. ring.
  - rewrite generate_run. eauto.
Qed.

Lemma single_mark_witness :
  let p := mkParams 1 (Int 64) (Int 64) (Int 5) (Int 55) "#333"
                    (Int 3) (Int 2) (Int 40) (Int 30) (Int 20) in
  num_marks p = 1
  /\ exists t, mark p 0 = Ok t /\ num_val (x_pos t) = 5%R.
Proof.
  cbv zeta. split; [reflexivity|].
  exact (proj1 (proj2 (proj2
    (single_mark (mkParams 1 (Int 64) (Int 64) (Int 5) (Int 55) "#333"
                           (Int 3) (Int 2) (Int 40) (Int 30) (Int 20))
                 format_1f (mkState [] (fun _ => None) []) eq_refl)))).
Defined.

(** C4: when [2 * margin < width], the positions of the markings never
    decrease with the index; with more than one marking, marking [i] sits at
    [margin + (width - 2*margin) * log(i+1)/log(count)]. *)
Theorem positions_monotone (p : params) (i j : Z) :
  1 <= num_marks p ->
  (2 * num_val (margin p) < num_val (width p))%R ->
  0 <= i -> i <= j -> j < num_marks p ->
  exists ti tj,
    mark p i = Ok ti /\ mark p j = Ok tj
    /\ (1 < num_marks p ->
        x_pos ti = Float (log_position p i) /\ x_pos tj = Float (log_position p j))
    /\ (num_val (x_pos ti) <= num_val (x_pos tj))%R.
Proof.
  intros Hn Hw Hi Hij Hj.
  destruct (mark_total p i) as [ti Hti]; [lia|].
  destruct (mark_total p j) as [tj Htj]; [lia|].
  exists ti, tj. split; [assumption|]. split; [assumption|].
  destruct (Z.eq_dec (num_marks p) 1) as [E|E].
  - split; [lia|]. assert (i = j) as -> by lia.
    rewrite Hti in Htj. injection Htj as ->. lra.
  - assert (Hxi := mark_x_log p i ti ltac:(lia) Hi Hti).
    assert (Hxj := mark_x_log p j tj ltac:(lia) ltac:(lia) Htj).
    split; [auto|]. rewrite Hxi, Hxj. simpl. unfold log_position.
    apply Rplus_le_compat_l, Rmult_le_compat_l; [lra|].
    apply log_ratio_mono; lia.
Qed.

Lemma positions_monotone_witness :
  1 <= num_marks driver_params
  /\ (2 * num_val (margin driver_params) < num_val (width driver_params))%R
  /\ exists ti tj,
       mark driver_params 1 = Ok ti /\ mark driver_params 2 = Ok tj
       /\ (num_val (x_pos ti) <= num_val (x_pos tj))%R.
Proof.
  assert (Hw : (2 * num_val (margin driver_params) < num_val (width driver_params))%R)
    by (simpl; lra).
  split; [discriminate|]. split; [assumption|].
  destruct (positions_monotone driver_params 1 2) as (ti & tj & Hi & Hj & _ & Hle);
    try (assumption || reflexivity || discriminate).
  exists ti, tj. auto.
Defined.

(** In exact arithmetic, with more than two markings the gap between the
    ratios of neighbouring markings is [(log(i+2) - log(i+1)) / log(count)],
    and it is strictly smaller at a later index.  What rounding leaves of
    this is [increments_decrease_up_to_rounding]. *)
Theorem ratio_increments_decrease (p : params) (i j : Z) :
  2 < num_marks p ->
  0 <= i -> i < j -> j + 1 < num_marks p ->
  exists a a' b b',
    ratio p i = Ok a /\ ratio p (i + 1) = Ok a'
    /\ ratio p j = Ok b /\ ratio p (j + 1) = Ok b'
    /\ (num_val a' - num_val a
        = (ln (IZR (i + 2)) - ln (IZR (i + 1))) / ln (IZR (num_marks p)))%R
    /\ (num_val b' - num_val b
        = (ln (IZR (j + 2)) - ln (IZR (j + 1))) / ln (IZR (num_marks p)))%R
    /\ (num_val b' - num_val b < num_val a' - num_val a)%R.
Proof.
  intros Hn Hi Hij Hj.
  do 4 eexists.
  repeat (split; [apply ratio_log; lia|]).
  simpl. unfold log_ratio.
  replace (i + 1 + 1) with (i + 2) by lia.
  replace (j + 1 + 1) with (j + 2) by lia.
  assert (Hl : (0 < ln (IZR (num_marks p)))%R) by (apply ln_int_pos; lia).
  split; [field; lra|]. split; [field; lra|].
  pose proof (ln_gap_decreasing i j ltac:(lia)) as Hgap.
  unfold Rdiv. rewrite <- !Rmult_minus_distr_r.
  apply Rmult_lt_compat_r; [now apply Rinv_0_lt_compat|assumption].
Qed.

(** ** Height and stroke width *)

(** C3: among the indices the loop visits, the first and the last get the
    tall height and [mark_thickness + 0.5] whatever their parity (the
    endpoint test comes first); any other even index gets the medium height
    and any other odd index the short one, both with [mark_thickness]. *)
Theorem weight_rule (p : params) (i : Z) :
  1 <= num_marks p -> 0 <= i -> i < num_marks p ->
  exists t,
    mark p i = Ok t
    /\ (i = 0 \/ i = num_marks p - 1 ->
        mark_height t = tall_height p
        /\ thickness t = Float (num_val (mark_thickness p) + 0.5))
    /\ (i <> 0 -> i <> num_marks p - 1 -> Z.even i = true ->
        mark_height t = medium_height p /\ thickness t = mark_thickness p)
    /\ (i <> 0 -> i <> num_marks p - 1 -> Z.odd i = true ->
        mark_height t = short_height p /\ thickness t = mark_thickness p).
Proof.
  intros Hn Hi0 Hi1.
  destruct (ratio_total p i) as [r Hr]; [lia|].
  rewrite (mark_of_ratio _ _ _ Hr). eexists. split; [reflexivity|].
  cbn [mark_height thickness]. unfold weight.
  pose proof (Zmod_even i) as Hev. pose proof (Zodd_even_bool i) as Hodd.
  destruct (Z.eqb_spec i 0) as [E0|E0]; destruct (Z.eqb_spec i (num_marks p - 1)) as [E1|E1];
    cbn [orb fst snd]; rewrite ?add_float_r;
    try (repeat split; solve [auto | intros; lia | intros; contradiction]).
  destruct (Z.even i); rewrite Hev; cbn [Z.eqb fst snd];
    repeat split; intros; try reflexivity; try lia; try discriminate.
  all: rewrite Hodd in *; discriminate.
Qed.

Lemma weight_rule_witness :
  1 <= num_marks driver_params /\ 0 <= 9 /\ 9 < num_marks driver_params
  /\ exists t,
       mark driver_params 9 = Ok t
       /\ mark_height t = Int 40 /\ thickness t = Float (2 + 0.5).
Proof.
  split; [discriminate|]. split; [discriminate|]. split; [reflexivity|].
  destruct (weight_rule driver_params 9) as (t & Ht & Hend & _);
    try (reflexivity || discriminate).
  exists t. split; [assumption|]. apply Hend. right. reflexivity.
Defined.

(** ** The lines of the document *)

Section Document.

Variable float_repr : R -> string.

Lemma line_element_kind (x1 y1 x2 y2 c w : string) :
  is_line_element (line_element x1 y1 x2 y2 c w) = true
  /\ is_root_open (line_element x1 y1 x2 y2 c w) = false
  /\ is_root_close (line_element x1 y1 x2 y2 c w) = false
  /\ is_comment (line_element x1 y1 x2 y2 c w) = false
  /\ is_blank (line_element x1 y1 x2 y2 c w) = false.
Proof. repeat split. Qed.

Lemma mark_comment_kind (i : Z) (t : tick) :
  is_line_element (mark_comment i t) = false
  /\ is_root_open (mark_comment i t) = false
  /\ is_root_close (mark_comment i t) = false
  /\ is_comment (mark_comment i t) = true.
Proof. repeat split. Qed.

Lemma svg_open_kind (p : params) :
  is_line_element (svg_open float_repr p) = false
  /\ is_root_open (svg_open float_repr p) = true
  /\ is_root_close (svg_open float_repr p) = false
  /\ is_comment (svg_open float_repr p) = false
  /\ is_blank (svg_open float_repr p) = false.
Proof. repeat split. Qed.

(** The markings of a run, in order. *)
Lemma marks_of_range (p : params) (l : list Z) :
  (forall i, In i l -> 0 <= i < num_marks p) ->
  exists ticks,
    Forall2 (fun i t => mark p i = Ok t) l ticks
    /\ flat_map (mark_lines float_repr p) l
       = flat_map (fun it => [mark_comment (fst it) (snd it);
                              mark_element float_repr p (snd it); ""])
                  (combine l ticks)
    /\ filter is_line_element (flat_map (mark_lines float_repr p) l)
       = map (mark_element float_repr p) ticks
    /\ element_lines (flat_map (mark_lines float_repr p) l)
       = map (mark_element float_repr p) ticks
    /\ filter is_root_open (flat_map (mark_lines float_repr p) l) = []
    /\ filter is_root_close (flat_map (mark_lines float_repr p) l) = [].
Proof.
  induction l as [|i l IH]; intros Hl.
  - exists []. repeat split. constructor.
  - destruct IH as (ticks & Hall & Hflat & Hline & Helem & Hopen & Hclose).
    { intros j Hj. apply Hl. now right. }
    destruct (mark_total p i (Hl i (or_introl eq_refl))) as [t Ht].
    exists (t :: ticks). split; [now constructor|].
    cbn [flat_map combine fst snd map]. unfold mark_lines at 1 3 5 7 9.
    rewrite Ht. unfold element_lines in *. cbn [app filter].
    destruct (line_element_kind (fmt_1f (x_pos t)) (fmt float_repr (baseline_y p))
                (fmt_1f (x_pos t)) (fmt float_repr (y_top t)) (color p)
                (fmt float_repr (thickness t))) as (E1 & E2 & E3 & E4 & E5).
    fold (mark_element float_repr p t) in E1, E2, E3, E4, E5.
    destruct (mark_comment_kind i t) as (F1 & F2 & F3 & F4).
    rewrite E1, E2, E3, E4, E5, F1, F2, F3, F4.
    literal_kinds.
    rewrite Hline, Helem, Hopen, Hclose, Hflat. repeat split.
Qed.

End Document.

(** C6, as stated, fails: a document with one marking is not the opening
    tag, the baseline element, one marking element and the closing tag and
    nothing else, whatever the float printer and the state of the run; its
    second line is a comment. *)
Lemma document_not_only_elements :
  ~ exists (float_repr : R -> string) (s : state) (ticks : list string),
      let p := mkParams 1 (Int 64) (Int 64) (Int 5) (Int 55) "#333"
                        (Int 3) (Int 2) (Int 40) (Int 30) (Int 20) in
      List.length ticks = 1%nat
      /\ forallb is_line_element ticks = true
      /\ fst (generate_log_ruler_svg float_repr p s)
         = Ok (join newline
                 ([svg_open float_repr p; baseline_element float_repr p]
                  ++ ticks ++ ["</svg>"])).
Proof.
  intros (float_repr & s & ticks & Hlen & _ & Hout).
  rewrite generate_run in Hout. cbn [fst] in Hout.
  destruct ticks as [|t [|t' ticks]]; try discriminate Hlen.
  (* character 64 is the fourth of the second line: "!" against "l" *)
  apply (f_equal (fun r => match r with
                           | Ok svg => String.get 64 svg
                           | Raise _ => None
                           end)) in Hout.
  vm_compute in Hout. discriminate Hout.
Qed.

(** C6, amended: the returned string is the join by line feeds of the
    opening tag with a [0 0 width height] view box, a comment, the baseline
    element, an empty line, a comment, then for each marking in index order a
    comment, its line element and an empty line, and the closing tag.  There
    are exactly [count] markings; leaving comments and empty lines out, the
    lines are the opening tag, the baseline element, the marking elements
    and the closing tag, with one root element opened and closed. *)
Theorem document_structure (float_repr : R -> string) (p : params) (s : state) :
  1 <= num_marks p ->
  exists ticks,
    Z.of_nat (List.length ticks) = num_marks p
    /\ Forall2 (fun i t => mark p i = Ok t) (range (num_marks p)) ticks
    /\ let lines :=
         ([svg_open float_repr p;
           "  <!-- Horizontal baseline -->";
           baseline_element float_repr p;
           "";
           "  <!-- Log-spaced markings -->"]
          ++ flat_map (fun it => [mark_comment (fst it) (snd it);
                                  mark_element float_repr p (snd it); ""])
                      (combine (range (num_marks p)) ticks)
          ++ ["</svg>"])%list in
       fst (generate_log_ruler_svg float_repr p s) = Ok (join newline lines)
       /\ element_lines lines
          = ([svg_open float_repr p; baseline_element float_repr p]
             ++ map (mark_element float_repr p) ticks ++ ["</svg>"])%list
       /\ filter is_line_element lines
          = baseline_element float_repr p :: map (mark_element float_repr p) ticks
       /\ filter is_root_open lines = [svg_open float_repr p]
       /\ filter is_root_close lines = ["</svg>"].
Proof.
  intros Hn.
  destruct (marks_of_range float_repr p (range (num_marks p)))
    as (ticks & Hall & Hflat & Hline & Helem & Hopen & Hclose);
    [intros i; apply in_range|].
  exists ticks. split.
  { rewrite <- (Forall2_length Hall), length_range. lia. }
  split; [assumption|]. cbv zeta. rewrite <- Hflat.
  split; [now rewrite generate_run|].
  destruct (svg_open_kind float_repr p) as (O1 & O2 & O3 & O4 & O5).
  destruct (line_element_kind
              (fmt float_repr (margin p)) (fmt float_repr (baseline_y p))
              (fmt float_repr (sub (width p) (margin p)))
              (fmt float_repr (baseline_y p)) (color p)
              (fmt float_repr (baseline_thickness p))) as (B1 & B2 & B3 & B4 & B5).
  fold (baseline_element float_repr p) in B1, B2, B3, B4, B5.
  unfold element_lines in *. cbn [app filter].
  rewrite !filter_app, Hline, Helem, Hopen, Hclose.
  rewrite O1, O2, O3, O4, O5, B1, B2, B3, B4, B5.
  cbn [filter]. literal_kinds. rewrite ?app_nil_r.
  repeat split.
Qed.

Lemma document_structure_witness :
  1 <= num_marks driver_params
  /\ exists ticks,
       Z.of_nat (List.length ticks) = 10
       /\ Forall2 (fun i t => mark driver_params i = Ok t) (range 10) ticks
       /\ filter is_root_close
            ([svg_open format_1f driver_params;
              "  <!-- Horizontal baseline -->";
              baseline_element format_1f driver_params;
              "";
              "  <!-- Log-spaced markings -->"]
             ++ flat_map (fun it => [mark_comment (fst it) (snd it);
                                     mark_element format_1f driver_params (snd it);
                                     ""])
                         (combine (range 10) ticks)
             ++ ["</svg>"])%list
          = ["</svg>"].
Proof.
  split; [discriminate|].
  destruct (document_structure format_1f driver_params
              (mkState [] (fun _ => None) []))
    as (ticks & Hlen & Hall & _ & _ & _ & _ & Hclose); [discriminate|].
  exists ticks. repeat split; assumption.
Defined.



(** ** Effects *)

(** C9: the value returned depends on the arguments alone, not on the state
    the call starts from, and the call leaves the files and the standard
    output as they were; the one thing it changes is its own list. *)
Theorem generate_pure (float_repr : R -> string) (p : params) (s1 s2 : state) :
  exists svg,
    fst (generate_log_ruler_svg float_repr p s1) = Ok svg
    /\ fst (generate_log_ruler_svg float_repr p s2) = Ok svg
    /\ files (snd (generate_log_ruler_svg float_repr p s1)) = files s1
    /\ stdout (snd (generate_log_ruler_svg float_repr p s1)) = stdout s1.
Proof. rewrite !generate_run. eexists. repeat split. Qed.

(** The script, by contrast, does touch the world: when the platform
    accepts the write, it stores the document in [log_ruler_favicon.svg]
    and prints one line. *)
Lemma script_run (float_repr : R -> string) (pf : platform) (s : state) :
  pf output_file (join newline (document float_repr driver_params)) = Written ->
  exists s',
    script float_repr pf s = (Ok tt, s')
    /\ files s' output_file = Some (join newline (document float_repr driver_params))
    /\ (forall q, q <> output_file -> files s' q = files s q)
    /\ stdout s' = (stdout s ++ ["SVG saved to log_ruler_favicon.svg"])%list.
Proof.
  intros Hpf. unfold script, bind. rewrite generate_run.
  unfold write_file, print. rewrite Hpf. unfold set_file.
  cbn [svg_lines files stdout].
  eexists. split; [reflexivity|]. cbn [files stdout].
  rewrite String.eqb_refl. repeat split.
  intros q Hq. now apply String.eqb_neq in Hq as ->.
Qed.

(** C10: with a mark count of zero or less the loop body never runs, the
    call returns, and the document holds the baseline element and no
    marking. *)
Theorem nonpositive_count (float_repr : R -> string) (p : params) (s : state) :
  num_marks p <= 0 ->
  let lines :=
    [svg_open float_repr p;
     "  <!-- Horizontal baseline -->";
     baseline_element float_repr p;
     "";
     "  <!-- Log-spaced markings -->";
     "</svg>"] in
  range (num_marks p) = []
  /\ generate_log_ruler_svg float_repr p s
     = (Ok (join newline lines), mkState lines (files s) (stdout s))
  /\ filter is_line_element lines = [baseline_element float_repr p].
Proof.
  intros Hn. cbv zeta. split; [now apply range_nonpos|].
  split.
  - rewrite generate_run. unfold document, preamble.
    rewrite range_nonpos by assumption. reflexivity.
  - destruct (svg_open_kind float_repr p) as (O1 & _).
    destruct (line_element_kind
                (fmt float_repr (margin p)) (fmt float_repr (baseline_y p))
                (fmt float_repr (sub (width p) (margin p)))
                (fmt float_repr (baseline_y p)) (color p)
                (fmt float_repr (baseline_thickness p))) as (B1 & _).
    fold (baseline_element float_repr p) in B1.
    cbn [filter]. rewrite O1, B1. literal_kinds. reflexivity.
Qed.

Lemma nonpositive_count_witness :
  let p := mkParams (-3) (Int 64) (Int 64) (Int 5) (Int 55) "#333"
                    (Int 3) (Int 2) (Int 40) (Int 30) (Int 20) in
  num_marks p <= 0
  /\ fst (generate_log_ruler_svg format_1f p (mkState [] (fun _ => None) []))
     = Ok (join newline
             [svg_open format_1f p;
              "  <!-- Horizontal baseline -->";
              baseline_element format_1f p;
              "";
              "  <!-- Log-spaced markings -->";
              "</svg>"]).
Proof.
  cbv zeta. split; [discriminate|].
  destruct (nonpositive_count format_1f
              (mkParams (-3) (Int 64) (Int 64) (Int 5) (Int 55) "#333"
                        (Int 3) (Int 2) (Int 40) (Int 30) (Int 20))
              (mkState [] (fun _ => None) [])) as (_ & Hrun & _); [discriminate|].
  rewrite Hrun. reflexivity.
Defined.

(** ** Printing with one decimal *)

Lemma round_half_even_near (x : R) (k : Z) :
  (IZR k - 1 / 2 < x < IZR k + 1 / 2)%R -> round_half_even x = k.
Proof.
  intros [Hlo Hhi]. unfold round_half_even.
  destruct (Rle_lt_dec (IZR k) x) as [Hge|Hlt].
  - assert (E : Int_part x = k).
    { symmetry. apply Int_part_spec. lra. }
    rewrite E. destruct (Rlt_dec (x - IZR k) (1 / 2)) as [_|Hn]; [reflexivity|lra].
  - assert (E : Int_part x = k - 1).
    { symmetry. apply Int_part_spec. rewrite minus_IZR. lra. }
    rewrite E, minus_IZR.
    destruct (Rlt_dec (x - (IZR k - 1)) (1 / 2)) as [Hn|_]; [lra|].
    destruct (Rlt_dec (1 / 2) (x - (IZR k - 1))) as [_|Hn]; [lia|lra].
Qed.

Lemma format_1f_nonneg (x : R) (k : Z) :
  (0 <= x)%R -> (IZR k - 1 / 2 < x * 10 < IZR k + 1 / 2)%R ->
  format_1f x = str_int (k / 10) ++ "." ++ str_int (k mod 10).
Proof.
  intros Hx Hk. unfold format_1f.
  rewrite Rabs_pos_eq by assumption.
  rewrite (round_half_even_near _ _ Hk).
  destruct (Rlt_dec x 0) as [Hneg|_]; [lra|reflexivity].
Qed.

(** [p/q < log10(k)] from [10^p < k^q], and the other way round. *)
Lemma log10_lower (k : Z) (p q : nat) :
  1 < k -> Z.pow 10 (Z.of_nat p) < Z.pow k (Z.of_nat q) ->
  (INR p * ln 10 < INR q * ln (IZR k))%R.
Proof.
  intros Hk Hpow. assert (0 < IZR k)%R by (apply IZR_lt; lia).
  rewrite <- !ln_pow by lra. apply ln_increasing; [apply pow_lt; lra|].
  rewrite !pow_IZR. now apply IZR_lt.
Qed.

Lemma log10_upper (k : Z) (p q : nat) :
  1 < k -> Z.pow k (Z.of_nat q) < Z.pow 10 (Z.of_nat p) ->
  (INR q * ln (IZR k) < INR p * ln 10)%R.
Proof.
  intros Hk Hpow. assert (0 < IZR k)%R by (apply IZR_lt; lia).
  rewrite <- !ln_pow by lra. apply ln_increasing; [apply pow_lt; lra|].
  rewrite !pow_IZR. now apply IZR_lt.
Qed.

(** The positions of the ten markings of the script, in tenths. *)
Lemma driver_positions :
  let x k := (5 + 54 * (ln k / ln 10))%R in
  (212.5 < x 2 * 10 < 213.5 /\ 307.5 < x 3 * 10 < 308.5
   /\ 374.5 < x 4 * 10 < 375.5 /\ 426.5 < x 5 * 10 < 427.5
   /\ 469.5 < x 6 * 10 < 470.5 /\ 505.5 < x 7 * 10 < 506.5
   /\ 537.5 < x 8 * 10 < 538.5 /\ 564.5 < x 9 * 10 < 565.5)%R.
Proof.
  cbv beta zeta.
  assert (H10 : (0 < ln 10)%R) by (apply (ln_int_pos 10); lia).
  pose proof (log10_lower 2 31 103 eq_refl eq_refl) as L2.
  pose proof (log10_upper 2 28 93 eq_refl eq_refl) as U2.
  pose proof (log10_lower 3 31 65 eq_refl eq_refl) as L3.
  pose proof (log10_upper 3 21 44 eq_refl eq_refl) as U3.
  pose proof (log10_lower 7 27 32 eq_refl eq_refl) as L7.
  pose proof (log10_upper 7 71 84 eq_refl eq_refl) as U7.
  rewrite !INR_IZR_INZ in *. simpl Z.of_nat in *.
  assert (E4 : ln 4 = (2 * ln 2)%R)
    by (replace 4%R with (2 * 2)%R by lra; rewrite ln_mult by lra; ring).
  assert (E5 : ln 5 = (ln 10 - ln 2)%R)
    by (replace 10%R with (2 * 5)%R by lra; rewrite ln_mult by lra; ring).
  assert (E6 : ln 6 = (ln 2 + ln 3)%R)
    by (replace 6%R with (2 * 3)%R by lra; rewrite ln_mult by lra; ring).
  assert (E8 : ln 8 = (3 * ln 2)%R)
    by (replace 8%R with (2 * (2 * 2))%R by lra; rewrite !ln_mult by lra; ring).
  assert (E9 : ln 9 = (2 * ln 3)%R)
    by (replace 9%R with (3 * 3)%R by lra; rewrite ln_mult by lra; ring).
  rewrite E4, E5, E6, E8, E9.
  set (a := (ln 2 / ln 10)%R). set (b := (ln 3 / ln 10)%R). set (c := (ln 7 / ln 10)%R).
  assert (Ha : (31 / 103 < a < 28 / 93)%R).
  { unfold a. split; apply Rmult_lt_reg_r with (ln 10); try assumption;
      unfold Rdiv; rewrite ?Rmult_assoc, ?Rinv_l by lra; lra. }
  assert (Hb : (31 / 65 < b < 21 / 44)%R).
  { unfold b. split; apply Rmult_lt_reg_r with (ln 10); try assumption;
      unfold Rdiv; rewrite ?Rmult_assoc, ?Rinv_l by lra; lra. }
  assert (Hc : (27 / 32 < c < 71 / 84)%R).
  { unfold c. split; apply Rmult_lt_reg_r with (ln 10); try assumption;
      unfold Rdiv; rewrite ?Rmult_assoc, ?Rinv_l by lra; lra. }
  replace (2 * ln 2 / ln 10)%R with (2 * a)%R by (unfold a; field; lra).
  replace ((ln 10 - ln 2) / ln 10)%R with (1 - a)%R by (unfold a; field; lra).
  replace ((ln 2 + ln 3) / ln 10)%R with (a + b)%R by (unfold a, b; field; lra).
  replace (3 * ln 2 / ln 10)%R with (3 * a)%R by (unfold a; field; lra).
  replace (2 * ln 3 / ln 10)%R with (2 * b)%R by (unfold b; field; lra).
  lra.
Qed.

(** ** The script's call *)

Ltac driver_mark i :=
  rewrite (mark_of_ratio _ _ _
             (ratio_log driver_params i ltac:(discriminate) ltac:(discriminate)));
  change (num_marks driver_params) with 10.

Lemma driver_mark_first :
  mark driver_params 0 = Ok (mkTick (Float 5) (Int 40) (Float 2.5) (Int 15)).
Proof.
  driver_mark 0. rewrite log_ratio_first.
  cbn. do 2 f_equal; f_equal; lra.
Qed.

Lemma driver_mark_last :
  mark driver_params 9 = Ok (mkTick (Float 59) (Int 40) (Float 2.5) (Int 15)).
Proof.
  driver_mark 9.
  pose proof (log_ratio_last 10 ltac:(discriminate)) as E.
  change (10 - 1) with 9 in E. rewrite E.
  cbn. do 2 f_equal; f_equal; lra.
Qed.

(** The ten markings of the script. *)
Lemma driver_marks :
  Forall2 (fun i t => mark driver_params i = Ok t) (range 10)
    [mkTick (Float 5) (Int 40) (Float 2.5) (Int 15);
     mkTick (Float (5 + 54 * (ln 2 / ln 10))) (Int 20) (Int 2) (Int 35);
     mkTick (Float (5 + 54 * (ln 3 / ln 10))) (Int 30) (Int 2) (Int 25);
     mkTick (Float (5 + 54 * (ln 4 / ln 10))) (Int 20) (Int 2) (Int 35);
     mkTick (Float (5 + 54 * (ln 5 / ln 10))) (Int 30) (Int 2) (Int 25);
     mkTick (Float (5 + 54 * (ln 6 / ln 10))) (Int 20) (Int 2) (Int 35);
     mkTick (Float (5 + 54 * (ln 7 / ln 10))) (Int 30) (Int 2) (Int 25);
     mkTick (Float (5 + 54 * (ln 8 / ln 10))) (Int 20) (Int 2) (Int 35);
     mkTick (Float (5 + 54 * (ln 9 / ln 10))) (Int 30) (Int 2) (Int 25);
     mkTick (Float 59) (Int 40) (Float 2.5) (Int 15)].
Proof.
  change (range 10) with [0; 1; 2; 3; 4; 5; 6; 7; 8; 9]%list.
  repeat first
    [ apply Forall2_nil
    | apply Forall2_cons;
      [ first [ exact driver_mark_first | exact driver_mark_last
              | match goal with
                | |- mark _ ?i = _ => driver_mark i; reflexivity
                end ] | ] ].
Qed.

(** How the ten positions print. *)
Lemma driver_positions_printed :
  let x k := (5 + 54 * (ln k / ln 10))%R in
  format_1f 5 = "5.0" /\ format_1f (x 2%R) = "21.3" /\ format_1f (x 3%R) = "30.8"
  /\ format_1f (x 4%R) = "37.5" /\ format_1f (x 5%R) = "42.7"
  /\ format_1f (x 6%R) = "47.0" /\ format_1f (x 7%R) = "50.6"
  /\ format_1f (x 8%R) = "53.8" /\ format_1f (x 9%R) = "56.5"
  /\ format_1f 59 = "59.0".
Proof.
  pose proof driver_positions as H. cbv beta zeta in *.
  destruct H as (H2 & H3 & H4 & H5 & H6 & H7 & H8 & H9).
  split; [apply (format_1f_nonneg 5 50); lra|].
  split; [apply (format_1f_nonneg _ 213); lra|].
  split; [apply (format_1f_nonneg _ 308); lra|].
  split; [apply (format_1f_nonneg _ 375); lra|].
  split; [apply (format_1f_nonneg _ 427); lra|].
  split; [apply (format_1f_nonneg _ 470); lra|].
  split; [apply (format_1f_nonneg _ 506); lra|].
  split; [apply (format_1f_nonneg _ 538); lra|].
  split; [apply (format_1f_nonneg _ 565); lra|].
  apply (format_1f_nonneg 59 590); lra.
Qed.

(** The document of the script, line by line. *)
Lemma driver_document (float_repr : R -> string) :
  document float_repr driver_params =
  [fstring ["<svg xmlns="; dquote; "http://www.w3.org/2000/svg"; dquote;
            " viewBox="; dquote; "0 0 64 64"; dquote; ">"];
   "  <!-- Horizontal baseline -->";
   line_element "5" "55" "59" "55" "#333" "3";
   "";
   "  <!-- Log-spaced markings -->";
   "  <!-- Mark 0: x≈5.0 -->";
   line_element "5.0" "55" "5.0" "15" "#333" (float_repr 2.5%R);
   "";
   "  <!-- Mark 1: x≈21.3 -->";
   line_element "21.3" "55" "21.3" "35" "#333" "2";
   "";
   "  <!-- Mark 2: x≈30.8 -->";
   line_element "30.8" "55" "30.8" "25" "#333" "2";
   "";
   "  <!-- Mark 3: x≈37.5 -->";
   line_element "37.5" "55" "37.5" "35" "#333" "2";
   "";
   "  <!-- Mark 4: x≈42.7 -->";
   line_element "42.7" "55" "42.7" "25" "#333" "2";
   "";
   "  <!-- Mark 5: x≈47.0 -->";
   line_element "47.0" "55" "47.0" "35" "#333" "2";
   "";
   "  <!-- Mark 6: x≈50.6 -->";
   line_element "50.6" "55" "50.6" "25" "#333" "2";
   "";
   "  <!-- Mark 7: x≈53.8 -->";
   line_element "53.8" "55" "53.8" "35" "#333" "2";
   "";
   "  <!-- Mark 8: x≈56.5 -->";
   line_element "56.5" "55" "56.5" "25" "#333" "2";
   "";
   "  <!-- Mark 9: x≈59.0 -->";
   line_element "59.0" "55" "59.0" "15" "#333" (float_repr 2.5%R);
   "";
   "</svg>"].
Proof.
  pose proof driver_marks as Hm.
  change (range 10) with [0; 1; 2; 3; 4; 5; 6; 7; 8; 9]%list in Hm.
  repeat (apply Forall2_cons_iff in Hm; destruct Hm as [? Hm]). clear Hm.
  destruct driver_positions_printed
    as (P0 & P1 & P2 & P3 & P4 & P5 & P6 & P7 & P8 & P9).
  cbv beta zeta in *.
  unfold document, preamble.
  change (range (num_marks driver_params))
    with [0; 1; 2; 3; 4; 5; 6; 7; 8; 9]%list.
  cbn [flat_map]. unfold mark_lines.
  repeat match goal with H : mark _ _ = Ok _ |- _ => rewrite H; clear H end.
  unfold mark_comment, mark_element, fmt_1f. cbn [x_pos num_val].
  rewrite P0, P1, P2, P3, P4, P5, P6, P7, P8, P9.
  reflexivity.
Qed.


(** The script returns after writing that document to
    [log_ruler_favicon.svg] and printing its message. *)
Lemma script_output (float_repr : R -> string) (pf : platform) (s : state) :
  pf output_file (join newline (document float_repr driver_params)) = Written ->
  exists s',
    script float_repr pf s = (Ok tt, s')
    /\ files s' "log_ruler_favicon.svg"
       = Some (join newline (document float_repr driver_params))
    /\ nth 8 (document float_repr driver_params) "" = "  <!-- Mark 1: x≈21.3 -->"
    /\ stdout s' = (stdout s ++ ["SVG saved to log_ruler_favicon.svg"])%list.
Proof.
  intros Hpf.
  destruct (script_run float_repr pf s Hpf) as (s' & Hrun & Hfile & _ & Hout).
  exists s'. rewrite driver_document at 2. repeat split; assumption.
Qed.

(** * Further properties of the generator and of the script *)

(** ** When the ratio can fail *)

Lemma log_ratio_strict (n i j : Z) :
  2 <= n -> 0 <= i < j -> (log_ratio n i < log_ratio n j)%R.
Proof.
  intros Hn Hij. unfold log_ratio, Rdiv.
  apply Rmult_lt_compat_r.
  - apply Rinv_0_lt_compat. now apply ln_int_pos.
  - apply ln_increasing; apply IZR_lt; lia.
Qed.

Lemma log_ratio_unit (n i : Z) :
  2 <= n -> 0 <= i < n -> (0 <= log_ratio n i <= 1)%R.
Proof.
  intros Hn Hi. rewrite <- (log_ratio_first n), <- (log_ratio_last n Hn).
  split; apply log_ratio_mono; lia.
Qed.

Lemma mark_x_of_ratio (p : params) (i : Z) (r : num) :
  ratio p i = Ok r ->
  exists t,
    mark p i = Ok t
    /\ num_val (x_pos t)
       = (num_val (margin p)
          + (num_val (width p) - 2 * num_val (margin p)) * num_val r)%R.
Proof.
  intros Hr. rewrite (mark_of_ratio _ _ _ Hr). eexists. split; [reflexivity|].
  cbn [x_pos]. rewrite num_val_add, num_val_mul, !num_val_sub. ring.
Qed.

(** Lines 46-49 fail in one way only: [math.log] rejects its argument, which
    takes a count other than 1 and either a negative index or a count of zero
    or less.  The division never fails, because log(count) is zero for
    count = 1 alone, and that count takes the other branch. *)
Theorem ratio_failure_cases (p : params) (i : Z) (e : exn) :
  ratio p i = Raise e
  <-> e = ValueError /\ num_marks p <> 1 /\ (i < 0 \/ num_marks p <= 0).
Proof.
  destruct (Z.eq_dec (num_marks p) 1) as [E1|E1].
  { rewrite ratio_one by assumption. split; [discriminate|]. tauto. }
  destruct (Z_lt_le_dec i 0) as [Hi|Hi].
  { unfold ratio, math_log. destruct (Z.eqb_spec (num_marks p) 1); [contradiction|].
    destruct (Z.ltb_spec 0 (i + 1)); [lia|]. cbn [rbind].
    split; [intros [= <-]; auto|]. now intros (-> & _). }
  destruct (Z_le_gt_dec (num_marks p) 0) as [Hn|Hn].
  { unfold ratio. destruct (Z.eqb_spec (num_marks p) 1); [contradiction|].
    rewrite (math_log_pos (i + 1)) by lia. cbn [rbind]. unfold math_log.
    destruct (Z.ltb_spec 0 (num_marks p)); [lia|]. cbn [rbind].
    split; [intros [= <-]; auto|]. now intros (-> & _). }
  rewrite ratio_log by lia. split; [discriminate|]. intros (_ & _ & [H|H]); lia.
Qed.

(** ** How high the markings reach *)

(** When the tiers are ordered [0 <= short <= medium <= tall], every marking
    ends on or above the baseline and no higher than the tall tier, which
    the first marking reaches. *)
Theorem ticks_vertical_bounds (p : params) (i : Z) :
  (0 <= num_val (short_height p))%R ->
  (num_val (short_height p) <= num_val (medium_height p))%R ->
  (num_val (medium_height p) <= num_val (tall_height p))%R ->
  0 <= i -> i < num_marks p ->
  exists t t0,
    mark p i = Ok t /\ mark p 0 = Ok t0
    /\ (num_val (y_top t0) = num_val (baseline_y p) - num_val (tall_height p))%R
    /\ (num_val (y_top t0) <= num_val (y_top t) <= num_val (baseline_y p))%R.
Proof.
  intros Hs Hm Ht Hi0 Hi1.
  destruct (ratio_total p i) as [r Hr]; [lia|].
  destruct (ratio_total p 0) as [r0 Hr0]; [lia|].
  rewrite (mark_of_ratio _ _ _ Hr), (mark_of_ratio _ _ _ Hr0).
  do 2 eexists. split; [reflexivity|]. split; [reflexivity|].
  cbn [y_top]. rewrite !num_val_sub.
  assert (H0 : fst (weight p 0) = tall_height p) by reflexivity.
  rewrite H0. split; [reflexivity|].
  unfold weight. destruct ((i =? 0) || (i =? num_marks p - 1)); cbn [fst]; [lra|].
  destruct (i mod 2 =? 0); cbn [fst]; lra.
Qed.

Lemma ticks_vertical_bounds_witness :
  (0 <= num_val (short_height driver_params))%R
  /\ exists t t0,
       mark driver_params 4 = Ok t /\ mark driver_params 0 = Ok t0
       /\ (num_val (y_top t0) <= num_val (y_top t) <= 55)%R.
Proof.
  assert (Hs : (0 <= num_val (short_height driver_params))%R) by (simpl; lra).
  assert (Hm : (num_val (short_height driver_params)
                <= num_val (medium_height driver_params))%R) by (simpl; lra).
  assert (Ht : (num_val (medium_height driver_params)
                <= num_val (tall_height driver_params))%R) by (simpl; lra).
  split; [assumption|].
  destruct (ticks_vertical_bounds driver_params 4 Hs Hm Ht)
    as (t & t0 & H4 & H0 & _ & Hy); try (reflexivity || discriminate).
  exists t, t0. repeat (split; [assumption|]). exact Hy.
Defined.

(** ** The shape of the text *)

Lemma append_assoc (a b c : string) : (a ++ b) ++ c = a ++ b ++ c.
Proof. induction a as [|ch a IH]; simpl; [reflexivity|now rewrite IH]. Qed.

Lemma concat_snoc (sep : string) (l : list string) (z : string) :
  l <> []%list ->
  String.concat sep (l ++ [z]) = String.concat sep l ++ sep ++ z.
Proof.
  induction l as [|x [|y l] IH]; intros Hl; [contradiction|reflexivity|].
  change (String.concat sep ((x :: y :: l) ++ [z]))
    with (x ++ sep ++ String.concat sep ((y :: l) ++ [z])).
  change (String.concat sep (x :: y :: l))
    with (x ++ sep ++ String.concat sep (y :: l)).
  rewrite IH by discriminate. now rewrite !append_assoc.
Qed.

Lemma length_mark_lines (float_repr : R -> string) (p : params) (l : list Z) :
  (forall i, In i l -> 0 <= i < num_marks p) ->
  List.length (flat_map (mark_lines float_repr p) l) = (3 * List.length l)%nat.
Proof.
  induction l as [|i l IH]; intros Hl; [reflexivity|].
  destruct (mark_total p i (Hl i (or_introl eq_refl))) as [t Ht].
  cbn [flat_map]. rewrite length_app, IH by (intros j Hj; apply Hl; now right).
  unfold mark_lines. rewrite Ht. cbn [List.length]. lia.
Qed.

(** The list the call joins has six lines and three more for each marking,
    whatever the count; joined, the text opens with the line of the root
    tag and closes with [</svg>], with no line feed after it. *)
Theorem document_extent (float_repr : R -> string) (p : params) (s : state) :
  List.length (svg_lines (snd (generate_log_ruler_svg float_repr p s)))
  = (6 + 3 * Z.to_nat (num_marks p))%nat
  /\ exists svg rest body,
       fst (generate_log_ruler_svg float_repr p s) = Ok svg
       /\ svg = svg_open float_repr p ++ newline ++ rest
       /\ svg = body ++ newline ++ "</svg>".
Proof.
  rewrite generate_run. cbn [fst snd svg_lines]. split.
  - unfold document, preamble. rewrite !length_app, length_mark_lines, length_range
      by (intros i; apply in_range).
    cbn [List.length]. lia.
  - eexists. unfold document.
    exists (join newline
              (["  <!-- Horizontal baseline -->"; baseline_element float_repr p; "";
                "  <!-- Log-spaced markings -->"]
               ++ flat_map (mark_lines float_repr p) (range (num_marks p))
               ++ ["</svg>"])),
           (join newline
              (preamble float_repr p
               ++ flat_map (mark_lines float_repr p) (range (num_marks p)))).
    split; [reflexivity|]. split; [reflexivity|].
    unfold join. rewrite app_assoc. apply concat_snoc.
    unfold preamble. discriminate.
Qed.



(** ** Colour *)


(** ** Where the markings fall *)

(** Every marking the loop draws has a ratio between 0 and 1. *)
Theorem ratio_in_unit_interval (p : params) (i : Z) :
  0 <= i -> i < num_marks p ->
  exists r, ratio p i = Ok r /\ (0 <= num_val r <= 1)%R.
Proof.
  intros Hi0 Hi1. destruct (Z.eq_dec (num_marks p) 1) as [E|E].
  - exists (Int 0). split; [now apply ratio_one|]. simpl. lra.
  - eexists. split; [apply ratio_log; lia|]. apply log_ratio_unit; lia.
Qed.

Lemma ratio_in_unit_interval_witness :
  0 <= 3 /\ 3 < num_marks driver_params
  /\ exists r, ratio driver_params 3 = Ok r /\ (0 <= num_val r <= 1)%R.
Proof.
  split; [discriminate|]. split; [reflexivity|].
  apply (ratio_in_unit_interval driver_params 3); reflexivity || discriminate.
Defined.

(** Nothing checks [2 * margin < width].  When [width = 2 * margin] all the
    markings share one position; when the margins overlap the order is
    turned round: a later index never sits further right. *)
Theorem positions_collapse_or_reverse (p : params) (i j : Z) :
  0 <= i -> i < j -> j < num_marks p ->
  exists ti tj,
    mark p i = Ok ti /\ mark p j = Ok tj
    /\ ((num_val (width p) = 2 * num_val (margin p))%R ->
        num_val (x_pos ti) = num_val (x_pos tj))
    /\ ((num_val (width p) < 2 * num_val (margin p))%R ->
        (num_val (x_pos tj) <= num_val (x_pos ti))%R).
Proof.
  intros Hi Hij Hj.
  destruct (mark_x_of_ratio p i _ (ratio_log p i ltac:(lia) ltac:(lia)))
    as (ti & Hti & Hxi).
  destruct (mark_x_of_ratio p j _ (ratio_log p j ltac:(lia) ltac:(lia)))
    as (tj & Htj & Hxj).
  exists ti, tj. repeat (split; [assumption|]).
  rewrite Hxi, Hxj. cbn [num_val].
  pose proof (log_ratio_strict (num_marks p) i j ltac:(lia) ltac:(lia)).
  split; intros Hw; [rewrite Hw; ring | nra].
Qed.

Lemma positions_collapse_or_reverse_witness :
  let p := mkParams 3 (Int 10) (Int 10) (Int 8) (Int 5) "#333"
                    (Int 3) (Int 2) (Int 40) (Int 30) (Int 20) in
  0 <= 0 /\ 0 < 2 /\ 2 < num_marks p
  /\ exists ti tj,
       mark p 0 = Ok ti /\ mark p 2 = Ok tj
       /\ (num_val (x_pos tj) <= num_val (x_pos ti))%R.
Proof.
  cbv zeta. split; [discriminate|]. split; [reflexivity|]. split; [reflexivity|].
  destruct (positions_collapse_or_reverse
              (mkParams 3 (Int 10) (Int 10) (Int 8) (Int 5) "#333"
                        (Int 3) (Int 2) (Int 40) (Int 30) (Int 20)) 0 2)
    as (ti & tj & Hti & Htj & _ & Hrev); try (reflexivity || discriminate).
  exists ti, tj. repeat (split; [assumption|]). apply Hrev. simpl. lra.
Defined.

(** Whatever the other arguments are, a larger count never gives a marking
    a larger ratio: no marking moves towards the right end. *)
Theorem more_marks_never_shift_right (p p' : params) (i : Z) :
  2 <= num_marks p -> num_marks p <= num_marks p' ->
  0 <= i -> i < num_marks p ->
  exists r r',
    ratio p i = Ok r /\ ratio p' i = Ok r' /\ (num_val r' <= num_val r)%R.
Proof.
  intros Hn Hn' Hi0 Hi1.
  exists (Float (log_ratio (num_marks p) i)), (Float (log_ratio (num_marks p') i)).
  split; [apply ratio_log; lia|]. split; [apply ratio_log; lia|].
  cbn [num_val]. unfold log_ratio, Rdiv.
  assert (Hl : (0 < ln (IZR (num_marks p)))%R) by (apply ln_int_pos; lia).
  assert (Hi : (0 <= ln (IZR (i + 1)))%R).
  { rewrite <- ln_1. apply (ln_int_le 1 (i + 1)); lia. }
  apply Rmult_le_compat_l; [assumption|].
  apply Rinv_le_contravar; [assumption|]. apply ln_int_le; lia.
Qed.

Lemma more_marks_never_shift_right_witness :
  2 <= num_marks default_params
  /\ num_marks default_params <= num_marks driver_params
  /\ 0 <= 3 /\ 3 < num_marks default_params
  /\ exists r r',
       ratio default_params 3 = Ok r /\ ratio driver_params 3 = Ok r'
       /\ (num_val r' <= num_val r)%R.
Proof.
  repeat (split; [discriminate|]). split; [reflexivity|].
  apply (more_marks_never_shift_right default_params driver_params 3);
    reflexivity || discriminate.
Defined.

(** ** What the script does to the world *)




(** * Double precision *)

Section DoublePrecision.

Import Floats.

(** ** Facts of binary64 arithmetic *)













(** ** The two ends of the ruler *)










(** ** The gaps between neighbouring markings *)

(** C5, as stated, fails in the arithmetic the code runs on: with 11,000,000
    markings the gap between the ratios at indices 10,344,364 and 10,344,365
    is not smaller than the gap before it; the two are the same double. *)
Lemma increments_tie_in_doubles :
  exists r0 r1 r2,
    Double.ratio Double.libm_log 11000000 10344363 = Ok (Double.DFloat r0)
    /\ Double.ratio Double.libm_log 11000000 10344364 = Ok (Double.DFloat r1)
    /\ Double.ratio Double.libm_log 11000000 10344365 = Ok (Double.DFloat r2)
    /\ (r2 - r1 <? r1 - r0)%float = false
    /\ (r2 - r1 =? r1 - r0)%float = true.
Proof.
  do 3 eexists. repeat split; vm_compute; reflexivity.
Qed.

(** The gaps of three neighbouring ratios, computed in doubles. *)
Lemma small_counts_in_doubles (n k : Z) :
  2 < n -> n <= 12 -> 0 <= k -> k + 2 < n ->
  exists r0 r1 r2,
    Double.ratio Double.libm_log n k = Ok (Double.DFloat r0)
    /\ Double.ratio Double.libm_log n (k + 1) = Ok (Double.DFloat r1)
    /\ Double.ratio Double.libm_log n (k + 2) = Ok (Double.DFloat r2)
    /\ (r2 - r1 <? r1 - r0)%float = true.
Proof.
  intros Hn0 Hn1 Hk0 Hk1.
  set (check := fun n k =>
         match Double.ratio Double.libm_log n k,
               Double.ratio Double.libm_log n (k + 1),
               Double.ratio Double.libm_log n (k + 2) with
         | Ok (Double.DFloat r0), Ok (Double.DFloat r1), Ok (Double.DFloat r2) =>
             (r2 - r1 <? r1 - r0)%float
         | _, _, _ => false
         end).
  assert (Hall : forallb (fun n => forallb (check n) (range (n - 2)))
                         (map (Z.add 3) (range 10)) = true)
    by (vm_compute; reflexivity).
  rewrite forallb_forall in Hall.
  assert (Hin : In n (map (Z.add 3) (range 10))).
  { apply in_map_iff. exists (n - 3). split; [lia|]. apply in_range. lia. }
  specialize (Hall n Hin). rewrite forallb_forall in Hall.
  specialize (Hall k ltac:(apply in_range; lia)).
  unfold check in Hall.
  destruct (Double.ratio Double.libm_log n k) as [[|r0]|]; try discriminate.
  destruct (Double.ratio Double.libm_log n (k + 1)) as [[|r1]|]; try discriminate.
  destruct (Double.ratio Double.libm_log n (k + 2)) as [[|r2]|]; try discriminate.
  exists r0, r1, r2. auto.
Qed.

(** C5, amended: in exact arithmetic, for every count above 2 the gap
    between the ratios of neighbouring markings is
    [(log(i+2) - log(i+1)) / log(count)] and is strictly smaller at a later
    index, and when [2 * margin < width] so is the gap between their
    positions, which stays positive: the markings grow denser towards the
    high-index, right end.  The doubles the code computes follow this for
    every count up to 12, not for every count. *)
Theorem increments_decrease_up_to_rounding (p : params) (i j : Z) :
  2 < num_marks p ->
  0 <= i -> i < j -> j + 1 < num_marks p ->
  (exists a a' b b',
      ratio p i = Ok a /\ ratio p (i + 1) = Ok a'
      /\ ratio p j = Ok b /\ ratio p (j + 1) = Ok b'
      /\ (num_val a' - num_val a
          = (ln (IZR (i + 2)) - ln (IZR (i + 1))) / ln (IZR (num_marks p)))%R
      /\ (num_val b' - num_val b
          = (ln (IZR (j + 2)) - ln (IZR (j + 1))) / ln (IZR (num_marks p)))%R
      /\ (num_val b' - num_val b < num_val a' - num_val a)%R)
  /\ (exists ti ti' tj tj',
        mark p i = Ok ti /\ mark p (i + 1) = Ok ti'
        /\ mark p j = Ok tj /\ mark p (j + 1) = Ok tj'
        /\ ((2 * num_val (margin p) < num_val (width p))%R ->
            (0 < num_val (x_pos tj') - num_val (x_pos tj)
             < num_val (x_pos ti') - num_val (x_pos ti))%R))
  /\ (forall n k,
        2 < n -> n <= 12 -> 0 <= k -> k + 2 < n ->
        exists r0 r1 r2,
          Double.ratio Double.libm_log n k = Ok (Double.DFloat r0)
          /\ Double.ratio Double.libm_log n (k + 1) = Ok (Double.DFloat r1)
          /\ Double.ratio Double.libm_log n (k + 2) = Ok (Double.DFloat r2)
          /\ (r2 - r1 <? r1 - r0)%float = true).
Proof.
  intros Hn Hi Hij Hj.
  split; [exact (ratio_increments_decrease p i j Hn Hi Hij Hj)|].
  split; [|exact small_counts_in_doubles].
  assert (H2 : 2 <= num_marks p) by lia.
  destruct (mark_x_of_ratio _ _ _ (ratio_log p i H2 ltac:(lia))) as (ti & Hti & Hxi).
  destruct (mark_x_of_ratio _ _ _ (ratio_log p (i + 1) H2 ltac:(lia)))
    as (ti' & Hti' & Hxi').
  destruct (mark_x_of_ratio _ _ _ (ratio_log p j H2 ltac:(lia))) as (tj & Htj & Hxj).
  destruct (mark_x_of_ratio _ _ _ (ratio_log p (j + 1) H2 ltac:(lia)))
    as (tj' & Htj' & Hxj').
  exists ti, ti', tj, tj'. repeat (split; [assumption|]).
  intros Hw. rewrite Hxi, Hxi', Hxj, Hxj'. cbn [num_val].
  pose proof (log_ratio_strict (num_marks p) j (j + 1) H2 ltac:(lia)) as Hpos.
  assert (Hgap : (log_ratio (num_marks p) (j + 1) - log_ratio (num_marks p) j
                  < log_ratio (num_marks p) (i + 1) - log_ratio (num_marks p) i)%R).
  { unfold log_ratio.
    replace (i + 1 + 1) with (i + 2) by lia.
    replace (j + 1 + 1) with (j + 2) by lia.
    pose proof (ln_int_pos _ H2) as Hl.
    pose proof (ln_gap_decreasing i j ltac:(lia)) as Hg.
    unfold Rdiv. rewrite <- !Rmult_minus_distr_r.
    apply Rmult_lt_compat_r; [now apply Rinv_0_lt_compat|assumption]. }
  nra.
Qed.

Lemma increments_decrease_up_to_rounding_witness :
  2 < num_marks driver_params /\ 0 <= 0 /\ 0 < 1 /\ 1 + 1 < num_marks driver_params
  /\ exists a a' b b',
       ratio driver_params 0 = Ok a /\ ratio driver_params 1 = Ok a'
       /\ ratio driver_params 1 = Ok b /\ ratio driver_params 2 = Ok b'
       /\ (num_val b' - num_val b < num_val a' - num_val a)%R.
Proof.
  split; [reflexivity|]. split; [discriminate|]. split; [reflexivity|].
  split; [reflexivity|].
  destruct (increments_decrease_up_to_rounding driver_params 0 1)
    as ((a & a' & b & b' & Ha & Ha' & Hb & Hb' & _ & _ & Hlt) & _);
    try (reflexivity || discriminate).
  exists a, a', b, b'. auto.
Defined.

End DoublePrecision.
